(** * testdriver-proxy: the OpenAI-to-Messages translation layer

    A shallow embedding of [testdriver_proxy/proxy.py] (class [ZAIProxy])
    together with the pydantic models of [models.py] and the dataclass of
    [config.py], and the properties of the request, response and stream
    translators established on it.

    Conventions.
    - A Python [str] is a [string] holding its UTF-8 encoding.
    - A Python value of dynamic type (what [json.loads] returns, what a
      [Dict[str, Any]] holds) is a [pyval].
    - A [dict] literal assembled key by key by the translator is a
      [gmap string pyval]: a key that was never assigned has no binding. *)

From Stdlib Require Import ZArith String Ascii List Bool Lia.
From Stdlib Require Import Floats.SpecFloat.
From stdpp Require Import gmap strings list fin_maps pretty.

Local Open Scope string_scope.
Local Open Scope Z_scope.
Local Open Scope list_scope.

(** ** Python values *)

(** A [float] is an IEEE-754 binary64 datum. *)
Abbreviation float := spec_float.

#[warnings="-register-all"] Inductive pyval : Type :=
| PNone
| PBool (b : bool)
| PInt (i : Z)
| PFloat (f : float)
| PStr (s : string)
| PList (l : list pyval)
| PDict (d : list (string * pyval)).

(** [bool(v)]: the truth value Python gives [v] in [if v:] and [v or w]. *)
Definition float_truthy (f : float) : bool :=
  match f with
  | S754_zero _ => false
  | _ => true
  end.

Definition str_truthy (s : string) : bool :=
  match s with
  | EmptyString => false
  | String _ _ => true
  end.

Definition list_truthy {A} (l : list A) : bool :=
  match l with
  | [] => false
  | _ :: _ => true
  end.

Definition truthy (v : pyval) : bool :=
  match v with
  | PNone => false
  | PBool b => b
  | PInt i => negb (i =? 0)
  | PFloat f => float_truthy f
  | PStr s => str_truthy s
  | PList l => list_truthy l
  | PDict d => list_truthy d
  end.

(** [d.get(key)] on a dict held as its item list (keys are unique in a
    Python dict; the first binding is the binding). *)
Fixpoint dict_lookup (key : string) (d : list (string * pyval)) : option pyval :=
  match d with
  | [] => None
  | (k, v) :: rest => if String.eqb k key then Some v else dict_lookup key rest
  end.

(** [d[key] = v]: overwrite in place, or append a new item. *)
Fixpoint dict_set (key : string) (v : pyval) (d : list (string * pyval))
  : list (string * pyval) :=
  match d with
  | [] => [(key, v)]
  | (k, w) :: rest =>
      if String.eqb k key then (k, v) :: rest else (k, w) :: dict_set key v rest
  end.

(** The exceptions the translator can let escape. *)
Inductive exn : Type :=
| AttributeError
| TypeError
| PydanticSerializationError.

(** [v.get(key, default)] on a value of unknown type: only a dict has the
    method. *)
Definition py_get (v : pyval) (key : string) (dflt : pyval) : exn + pyval :=
  match v with
  | PDict d => inr (default dflt (dict_lookup key d))
  | _ => inl AttributeError
  end.

(** ** [models.py]: the pydantic models *)

(** [Message.role: Literal["system", "user", "assistant"]]. *)
Inductive Role : Type := system | user | assistant.

Definition Role_str (r : Role) : string :=
  match r with
  | system => "system"
  | user => "user"
  | assistant => "assistant"
  end.

(** [Message.content: str | List[Dict[str, Any]]]. *)
Inductive Content : Type :=
| Text (s : string)
| Parts (parts : list (list (string * pyval))).

(** [ChatCompletionRequest.stop: Optional[List[str] | str]]. *)
Inductive Stop : Type :=
| StopList (l : list string)
| StopStr (s : string).

Module Message.
Record t : Type := Build {
  role : Role;
  content : Content;
  name : option string;
}.
End Message.

Module ChatCompletionRequest.
Record t : Type := Build {
  model : string;
  messages : list Message.t;
  temperature : option float;
  top_p : option float;
  n : option Z;
  stream : option bool;
  stop : option Stop;
  max_tokens : option Z;
  presence_penalty : option float;
  frequency_penalty : option float;
  logit_bias : option (list (string * float));
  user : option string;
}.
End ChatCompletionRequest.

Module Choice.
Record t : Type := Build {
  index : Z;
  message : Message.t;
  finish_reason : option string;
}.
End Choice.

Module Usage.
Record t : Type := Build {
  prompt_tokens : Z;
  completion_tokens : Z;
  total_tokens : Z;
}.
End Usage.

Module ChatCompletionResponse.
Record t : Type := Build {
  id : string;
  object : string;
  created : Z;
  model : string;
  choices : list Choice.t;
  usage : Usage.t;
  system_fingerprint : option string;
}.
End ChatCompletionResponse.

Module StreamChoice.
Record t : Type := Build {
  index : Z;
  delta : gmap string pyval;
  finish_reason : option string;
}.
End StreamChoice.

Module ChatCompletionChunk.
Record t : Type := Build {
  id : string;
  object : string;
  created : Z;
  model : string;
  choices : list StreamChoice.t;
  system_fingerprint : option string;
}.
End ChatCompletionChunk.

(** ** [config.py]: the process-wide configuration *)

Module Config.
Record t : Type := Build {
  host : string;
  port : Z;
  zai_api_key : option string;
  zai_base_url : string;
  default_model : string;
  vision_model : string;
  max_tokens : Z;
  temperature : float;
  timeout : Z;
  max_retries : Z;
  log_level : string;
  log_requests : bool;
}.
End Config.

(** ** Conversions between typed fields and dynamic values *)

Definition option_val {A} (f : A -> pyval) (o : option A) : pyval :=
  match o with
  | Some a => f a
  | None => PNone
  end.

Definition Content_val (c : Content) : pyval :=
  match c with
  | Text s => PStr s
  | Parts parts => PList (PDict <$> parts)
  end.

Definition Content_truthy (c : Content) : bool :=
  match c with
  | Text s => str_truthy s
  | Parts parts => list_truthy parts
  end.

(** [msg.model_dump()]. *)
Definition Message_model_dump (msg : Message.t) : pyval :=
  PDict [ ("role", PStr (Role_str (Message.role msg)));
          ("content", Content_val (Message.content msg));
          ("name", option_val PStr (Message.name msg)) ].

Definition is_system (msg : Message.t) : bool :=
  match Message.role msg with
  | system => true
  | _ => false
  end.

(** ** [ZAIProxy.transform_request] *)

(** One turn of [for msg in request.messages], on the pair
    [(system_content, messages)]. *)
Definition transform_request_step
    (acc : option Content * list pyval) (msg : Message.t)
  : option Content * list pyval :=
  let '(system_content, messages) := acc in
  let msg_dict := Message_model_dump msg in
  if is_system msg
  then (Some (Message.content msg), messages)
  else (system_content, messages ++ [msg_dict]).

(** [x or y] for an [Optional[int]] on the left and an [int] on the right. *)
Definition int_or (x : option Z) (y : Z) : Z :=
  match x with
  | Some i => if truthy (PInt i) then i else y
  | None => y
  end.

(** [if cond: d[key] = v]. *)
Definition set_if (cond : bool) (key : string) (v : pyval)
    (d : gmap string pyval) : gmap string pyval :=
  if cond then <[key := v]> d else d.

Definition transform_request (config : Config.t) (request : ChatCompletionRequest.t)
  : gmap string pyval :=
  let '(system_content, messages) :=
    fold_left transform_request_step
      (ChatCompletionRequest.messages request) (None, []) in
  let zai_request : gmap string pyval :=
    {[ "model" := PStr (ChatCompletionRequest.model request);
       "messages" := PList messages;
       "max_tokens" :=
         PInt (int_or (ChatCompletionRequest.max_tokens request)
                      (Config.max_tokens config));
       "stream" := option_val PBool (ChatCompletionRequest.stream request) ]} in
  let zai_request :=
    match system_content with
    | Some c => set_if (Content_truthy c) "system" (Content_val c) zai_request
    | None => zai_request
    end in
  let zai_request :=
    match ChatCompletionRequest.temperature request with
    | Some t => <["temperature" := PFloat t]> zai_request
    | None => zai_request
    end in
  let zai_request :=
    match ChatCompletionRequest.top_p request with
    | Some p => <["top_p" := PFloat p]> zai_request
    | None => zai_request
    end in
  let zai_request :=
    match ChatCompletionRequest.stop request with
    | Some (StopList l) =>
        set_if (list_truthy l) "stop_sequences" (PList (PStr <$> l)) zai_request
    | Some (StopStr s) =>
        set_if (str_truthy s) "stop_sequences" (PList [PStr s]) zai_request
    | None => zai_request
    end in
  zai_request.

(** ** [ZAIProxy._non_stream_response]

    The body of the backend's reply, in the shape the source documents next
    to its translation ([id], [content] blocks, [stop_reason], [usage]).
    The translator reads every key through [in] or [.get] with a default,
    so each key is optional here. *)

Module ContentBlock.
Record t : Type := Build {
  type : option string;
  text : option string;
}.
End ContentBlock.

Module BackendUsage.
Record t : Type := Build {
  input_tokens : option Z;
  output_tokens : option Z;
}.
(** The [{}] of [.get("usage", {})]. *)
Definition empty : t := Build None None.
End BackendUsage.

Module BackendResponse.
Record t : Type := Build {
  id : option string;
  content : option (list ContentBlock.t);
  stop_reason : option string;
  usage : option BackendUsage.t;
}.
End BackendResponse.

Definition finish_reason_map : gmap string string :=
  {[ "end_turn" := "stop";
     "max_tokens" := "length";
     "stop_sequence" := "stop" ]}.

(** [s[:n]]. *)
Fixpoint str_take (n : nat) (s : string) : string :=
  match n, s with
  | S n, String c r => String c (str_take n r)
  | _, _ => EmptyString
  end.

(** [s[n:]]. *)
Fixpoint str_drop (n : nat) (s : string) : string :=
  match n, s with
  | S n, String _ r => str_drop n r
  | _, _ => s
  end.

(** One turn of [for content_block in zai_response["content"]]. *)
Definition content_text_step (content_text : string) (content_block : ContentBlock.t)
  : string :=
  match ContentBlock.type content_block with
  | Some ty =>
      if String.eqb ty "text"
      then content_text +:+ default "" (ContentBlock.text content_block)
      else content_text
  | None => content_text
  end.

(** [uuid_hex] is the value of [uuid.uuid4().hex] and [now] that of
    [int(time.time())] when the reply is translated. *)
Definition _non_stream_response
    (request : ChatCompletionRequest.t) (zai_response : BackendResponse.t)
    (uuid_hex : string) (now : Z) : ChatCompletionResponse.t :=
  let content_text :=
    match BackendResponse.content zai_response with
    | Some blocks => fold_left content_text_step blocks ""
    | None => ""
    end in
  let stop_reason := default "stop" (BackendResponse.stop_reason zai_response) in
  let finish_reason := default "stop" (finish_reason_map !! stop_reason) in
  let usage := default BackendUsage.empty (BackendResponse.usage zai_response) in
  ChatCompletionResponse.Build
    ("chatcmpl-" +:+ default (str_take 8 uuid_hex) (BackendResponse.id zai_response))
    "chat.completion"
    now
    (ChatCompletionRequest.model request)
    [ Choice.Build 0 (Message.Build assistant (Text content_text) None)
        (Some finish_reason) ]
    (Usage.Build
       (default 0 (BackendUsage.input_tokens usage))
       (default 0 (BackendUsage.output_tokens usage))
       (default 0 (BackendUsage.input_tokens usage)
        + default 0 (BackendUsage.output_tokens usage)))
    None.

(** ** Text operations of the stream loop *)

Definition ascii_in (lo hi : nat) (c : ascii) : bool :=
  let n := nat_of_ascii c in (Nat.leb lo n && Nat.leb n hi)%bool.

(** [ws_head bytes]: when [bytes] begins with the encoding of a character
    for which [str.isspace] holds (U+0009..000D, U+001C..0020, U+0085,
    U+00A0, U+1680, U+2000..200A, U+2028, U+2029, U+202F, U+205F, U+3000),
    what follows that character. *)
Definition ws_head (bytes : list ascii) : option (list ascii) :=
  match bytes with
  | c1 :: r1 =>
      if (ascii_in 9 13 c1 || ascii_in 28 32 c1)%bool then Some r1
      else
        match r1 with
        | c2 :: r2 =>
            if (ascii_in 194 194 c1 && (ascii_in 133 133 c2 || ascii_in 160 160 c2))%bool
            then Some r2
            else
              match r2 with
              | c3 :: r3 =>
                  if ((ascii_in 225 225 c1 && ascii_in 154 154 c2 && ascii_in 128 128 c3)
                      || (ascii_in 226 226 c1 && ascii_in 128 128 c2
                          && (ascii_in 128 138 c3 || ascii_in 168 169 c3
                              || ascii_in 175 175 c3))
                      || (ascii_in 226 226 c1 && ascii_in 129 129 c2 && ascii_in 159 159 c3)
                      || (ascii_in 227 227 c1 && ascii_in 128 128 c2
                          && ascii_in 128 128 c3))%bool
                  then Some r3
                  else None
              | [] => None
              end
        | [] => None
        end
  | [] => None
  end.

(** [bytes] is the encoding of exactly one such character. *)
Definition is_ws (bytes : list ascii) : bool :=
  match ws_head bytes with
  | Some [] => true
  | _ => false
  end.

(** The same from the end of the text: [ws_last setyb] takes the bytes in
    reverse order. *)
Definition ws_last (setyb : list ascii) : option (list ascii) :=
  match setyb with
  | c1 :: r1 =>
      if (ascii_in 9 13 c1 || ascii_in 28 32 c1)%bool then Some r1
      else
        match r1 with
        | c2 :: r2 =>
            if is_ws [c2; c1] then Some r2
            else
              match r2 with
              | c3 :: r3 => if is_ws [c3; c2; c1] then Some r3 else None
              | [] => None
              end
        | [] => None
        end
  | [] => None
  end.

Fixpoint strip_with (f : list ascii -> option (list ascii)) (fuel : nat)
    (bytes : list ascii) : list ascii :=
  match fuel with
  | O => bytes
  | S fuel =>
      match f bytes with
      | Some rest => strip_with f fuel rest
      | None => bytes
      end
  end.

(** [s.strip()]. *)
Definition strip (s : string) : string :=
  let bytes := list_ascii_of_string s in
  let bytes := strip_with ws_head (length bytes) bytes in
  let setyb := strip_with ws_last (length bytes) (rev bytes) in
  string_of_list_ascii (rev setyb).

(** [s.startswith(p)]. *)
Definition startswith (s p : string) : bool := String.prefix p s.

(** ** [ZAIProxy._stream_response] *)

(** Sequencing of steps that may raise. *)
Definition raise_bind {A B} (m : exn + A) (k : A -> exn + B) : exn + B :=
  match m with
  | inl e => inl e
  | inr a => k a
  end.

Notation "'let*' x ':=' m 'in' k" := (raise_bind m (fun x => k))
  (at level 10, x name, m at level 100, k at level 200, only parsing).

(** [v == s] for a string literal [s]. *)
Definition py_eq_str (v : pyval) (s : string) : bool :=
  match v with
  | PStr t => String.eqb t s
  | _ => false
  end.

(** [finish_reason_map.get(stop_reason, "stop")] for a [stop_reason] of
    unknown type: a list or a dict cannot be hashed, and nothing but a
    string equals a key of the map. *)
Definition finish_reason_map_get (stop_reason : pyval) : exn + string :=
  match stop_reason with
  | PStr s => inr (default "stop" (finish_reason_map !! s))
  | PList _ | PDict _ => inl TypeError
  | _ => inr "stop"
  end.

(** The dispatch on [event_type]: [inr None] is the [continue] of
    [message_stop]; [inr (Some (delta, finish_reason))] falls through to
    the construction of the chunk. *)
Definition dispatch_event (zai_chunk : pyval)
  : exn + option (gmap string pyval * option string) :=
  let* event_type := py_get zai_chunk "type" PNone in
  if py_eq_str event_type "content_block_start" then
    inr (Some ({[ "role" := PStr "assistant"; "content" := PStr "" ]}, None))
  else if py_eq_str event_type "content_block_delta" then
    let* delta_data := py_get zai_chunk "delta" (PDict []) in
    let* delta_type := py_get delta_data "type" PNone in
    if py_eq_str delta_type "text_delta" then
      let* text := py_get delta_data "text" (PStr "") in
      inr (Some ({[ "content" := text ]}, None))
    else inr (Some (∅, None))
  else if py_eq_str event_type "message_delta" then
    let* message_delta := py_get zai_chunk "delta" (PDict []) in
    let* stop_reason := py_get message_delta "stop_reason" PNone in
    if truthy stop_reason then
      let* finish_reason := finish_reason_map_get stop_reason in
      inr (Some (∅, Some finish_reason))
    else inr (Some (∅, None))
  else if py_eq_str event_type "message_stop" then
    inr None
  else inr (Some (∅, None)).

(** What one turn of [async for line in response.aiter_lines()] does. *)
Inductive turn : Type :=
| Continue
| YieldChunk (delta : gmap string pyval) (finish_reason : option string)
| YieldDoneBreak
| Raise (e : exn).

(** What the generator hands to its consumer. *)
Inductive sse : Type :=
| Done
| Chunk (chunk : ChatCompletionChunk.t).

(** How the generator ends: it returns, or an exception escapes it. *)
Inductive ending : Type :=
| Returned
| Raised (e : exn).

(** Whether a text holds a lone surrogate, which a Python [str] may hold
    (a decoded [\ud800] escape) and which has no UTF-8 form proper: in
    the encoding used here, the byte 237 followed by a byte from 160 to
    191. *)
Fixpoint has_surrogate (s : string) : bool :=
  match s with
  | EmptyString => false
  | String c r =>
      ((ascii_in 237 237 c
        && match r with
           | String c' _ => ascii_in 160 191 c'
           | EmptyString => false
           end)
       || has_surrogate r)%bool
  end.

(** Whether [model_dump_json] can write a value held under [Any]: it
    raises [PydanticSerializationError] on a text with a lone surrogate,
    wherever in the value the text is. *)
Fixpoint serializable (v : pyval) : bool :=
  match v with
  | PStr s => negb (has_surrogate s)
  | PList l => forallb serializable l
  | PDict d =>
      forallb (fun kv => let '(key, w) := kv in
                         (negb (has_surrogate key) && serializable w)%bool) d
  | _ => true
  end.

Definition delta_serializable (delta : gmap string pyval) : bool :=
  forallb (fun kv => serializable kv.2) (map_to_list delta).

Section StreamResponse.

(** [json.loads]: [None] stands for [json.JSONDecodeError]. A call that
    ends in another exception (the [ValueError] of an integer literal
    over the digit limit, a [RecursionError]) is not among the outcomes
    of this parameter. *)
Variable json_loads : string -> option pyval.

(** [chunk.model_dump_json()], for a chunk that serializes. *)
Variable model_dump_json : ChatCompletionChunk.t -> string.

Definition stream_turn (line : string) : turn :=
  if (negb (str_truthy line) || String.eqb (strip line) "")%bool then Continue
  else
    let line := if startswith line "data: " then str_drop 6 line else line in
    if String.eqb (strip line) "[DONE]" then YieldDoneBreak
    else if startswith line "event: " then Continue
    else
      match json_loads line with
      | None => Continue
      | Some zai_chunk =>
          match dispatch_event zai_chunk with
          | inl e => Raise e
          | inr None => Continue
          | inr (Some (delta, finish_reason)) => YieldChunk delta finish_reason
          end
      end.

(** The loop. [clock k] is the value of [int(time.time())] the [k]-th
    time the generator reads the clock, [k] counting from the chunks
    already built. *)
Fixpoint stream_loop (chunk_id model : string) (clock : nat -> Z) (k : nat)
    (lines : list string) : list sse * ending :=
  match lines with
  | [] => ([], Returned)
  | line :: lines =>
      match stream_turn line with
      | Continue => stream_loop chunk_id model clock k lines
      | YieldChunk delta finish_reason =>
          let chunk :=
            ChatCompletionChunk.Build chunk_id "chat.completion.chunk"
              (clock k) model
              [ StreamChoice.Build 0 delta finish_reason ] None in
          if delta_serializable delta then
            let '(out, e) := stream_loop chunk_id model clock (S k) lines in
            (Chunk chunk :: out, e)
          else ([], Raised PydanticSerializationError)
      | YieldDoneBreak => ([Done], Returned)
      | Raise e => ([], Raised e)
      end
  end.

(** [lines] is what [response.aiter_lines()] delivers and [uuid_hex] the
    value of [uuid.uuid4().hex]. *)
Definition _stream_response (request : ChatCompletionRequest.t)
    (uuid_hex : string) (clock : nat -> Z) (lines : list string)
  : list sse * ending :=
  let chunk_id := "chatcmpl-" +:+ str_take 8 uuid_hex in
  stream_loop chunk_id (ChatCompletionRequest.model request) clock O lines.

(** The text of a yielded item. *)
Definition sse_text (item : sse) : string :=
  let nl := String (ascii_of_nat 10) EmptyString in
  match item with
  | Done => "data: [DONE]" +:+ nl +:+ nl
  | Chunk chunk => "data: " +:+ model_dump_json chunk +:+ nl +:+ nl
  end.

End StreamResponse.

(** ** A decoder for [json.loads]

    The stream translator above is parametric in the decoder. The decoder
    below follows the grammar the standard library's [json] module accepts
    (including its [NaN], [Infinity] and [-Infinity]); it serves to run
    the translator on concrete lines. *)

Definition is_json_ws (c : ascii) : bool :=
  (ascii_in 32 32 c || ascii_in 9 10 c || ascii_in 13 13 c)%bool.

Fixpoint skip_ws (s : string) : string :=
  match s with
  | String c r => if is_json_ws c then skip_ws r else s
  | EmptyString => s
  end.

Definition digit_val (c : ascii) : option Z :=
  if ascii_in 48 57 c then Some (Z.of_nat (nat_of_ascii c) - 48) else None.

Definition hex_val (c : ascii) : option Z :=
  if ascii_in 48 57 c then Some (Z.of_nat (nat_of_ascii c) - 48)
  else if ascii_in 65 70 c then Some (Z.of_nat (nat_of_ascii c) - 55)
  else if ascii_in 97 102 c then Some (Z.of_nat (nat_of_ascii c) - 87)
  else None.

Fixpoint span_digits (s : string) : list Z * string :=
  match s with
  | String c r =>
      match digit_val c with
      | Some d => let '(ds, r') := span_digits r in (d :: ds, r')
      | None => ([], s)
      end
  | EmptyString => ([], s)
  end.

Definition digits_val (ds : list Z) : Z :=
  fold_left (fun acc d => 10 * acc + d) ds 0.

(** The binary64 nearest to [m * 10 ^ e10] (ties to even), [m >= 0]. *)
Definition decimal_to_float (neg : bool) (m e10 : Z) : float :=
  if m =? 0 then S754_zero neg
  else if 0 <=? e10 then
    binary_normalize 53 1024 ((if neg then -1 else 1) * (m * 10 ^ e10)) 0 neg
  else
    let '(q, e, l) := SFdiv_core_binary 53 1024 m 0 (10 ^ (- e10)) 0 in
    binary_round_aux 53 1024 neg q e l.

(** The part of a number after its integer digits: an optional fraction
    and an optional exponent, each taken only when complete. *)
Definition scan_number_tail (neg : bool) (ints : list Z) (r : string)
  : pyval * string :=
  let '(fracs, r1) :=
    match r with
    | String c r' =>
        if ascii_in 46 46 c then
          match span_digits r' with
          | ([], _) => ([], r)
          | (fs, r'') => (fs, r'')
          end
        else ([], r)
    | EmptyString => ([], r)
    end in
  let '(ex, r2) :=
    match r1 with
    | String c r' =>
        if (ascii_in 101 101 c || ascii_in 69 69 c)%bool then
          let '(sign, r'') :=
            match r' with
            | String c' t =>
                if ascii_in 43 43 c' then (1, t)
                else if ascii_in 45 45 c' then (-1, t)
                else (1, r')
            | EmptyString => (1, r')
            end in
          match span_digits r'' with
          | ([], _) => (None, r1)
          | (es, t) => (Some (sign * digits_val es), t)
          end
        else (None, r1)
    | EmptyString => (None, r1)
    end in
  match fracs, ex with
  | [], None => (PInt ((if neg then -1 else 1) * digits_val ints), r2)
  | _, _ =>
      (PFloat (decimal_to_float neg (digits_val (ints ++ fracs))
                 (default 0 ex - Z.of_nat (length fracs))), r2)
  end.

Definition scan_number (s : string) : option (pyval * string) :=
  let '(neg, s1) :=
    match s with
    | String c r => if ascii_in 45 45 c then (true, r) else (false, s)
    | EmptyString => (false, s)
    end in
  match s1 with
  | String c r =>
      match digit_val c with
      | Some d =>
          if d =? 0 then Some (scan_number_tail neg [0] r)
          else
            let '(ds, r') := span_digits r in
            Some (scan_number_tail neg (d :: ds) r')
      | None => None
      end
  | EmptyString => None
  end.

Definition byte_of_Z (z : Z) : ascii := ascii_of_N (Z.to_N z).

(** The UTF-8 encoding of a code point (a lone surrogate, which a Python
    [str] may hold, takes the three-byte form). *)
Definition utf8_encode (cp : Z) : string :=
  if cp <? 128 then String (byte_of_Z cp) EmptyString
  else if cp <? 2048 then
    String (byte_of_Z (192 + cp / 64))
      (String (byte_of_Z (128 + cp mod 64)) EmptyString)
  else if cp <? 65536 then
    String (byte_of_Z (224 + cp / 4096))
      (String (byte_of_Z (128 + (cp / 64) mod 64))
         (String (byte_of_Z (128 + cp mod 64)) EmptyString))
  else
    String (byte_of_Z (240 + cp / 262144))
      (String (byte_of_Z (128 + (cp / 4096) mod 64))
         (String (byte_of_Z (128 + (cp / 64) mod 64))
            (String (byte_of_Z (128 + cp mod 64)) EmptyString))).

Definition hex4 (a b c d : ascii) : option Z :=
  match hex_val a, hex_val b, hex_val c, hex_val d with
  | Some x, Some y, Some z, Some w => Some (((x * 16 + y) * 16 + z) * 16 + w)
  | _, _, _, _ => None
  end.

(** The escape [\c] for a one-letter [c]. *)
Definition simple_escape (c : ascii) : option ascii :=
  if (ascii_in 34 34 c || ascii_in 92 92 c || ascii_in 47 47 c)%bool then Some c
  else if ascii_in 98 98 c then Some (ascii_of_nat 8)
  else if ascii_in 102 102 c then Some (ascii_of_nat 12)
  else if ascii_in 110 110 c then Some (ascii_of_nat 10)
  else if ascii_in 114 114 c then Some (ascii_of_nat 13)
  else if ascii_in 116 116 c then Some (ascii_of_nat 9)
  else None.

(** The low half of a surrogate pair, when [s] begins with its escape. *)
Definition low_surrogate (s : string) : option Z :=
  match s with
  | String b (String u (String h1 (String h2 (String h3 (String h4 _))))) =>
      if (ascii_in 92 92 b && ascii_in 117 117 u)%bool then
        match hex4 h1 h2 h3 h4 with
        | Some lo => if ((56320 <=? lo) && (lo <=? 57343))%bool then Some lo else None
        | None => None
        end
      else None
  | _ => None
  end.

(** A string literal after its opening quote: the text and what follows
    the closing quote. Control characters must be escaped. *)
Fixpoint scan_string (s : string) : option (string * string) :=
  match s with
  | EmptyString => None
  | String c r =>
      if ascii_in 34 34 c then Some (EmptyString, r)
      else if ascii_in 0 31 c then None
      else if ascii_in 92 92 c then
        match r with
        | String e r1 =>
            if ascii_in 117 117 e then
              match r1 with
              | String h1 (String h2 (String h3 (String h4 r5))) =>
                  match hex4 h1 h2 h3 h4 with
                  | Some hi =>
                      match (if ((55296 <=? hi) && (hi <=? 56319))%bool
                             then low_surrogate r5 else None), r5 with
                      | Some lo,
                        String _ (String _ (String _ (String _ (String _ (String _ r11))))) =>
                          match scan_string r11 with
                          | Some (t, rest) =>
                              Some (utf8_encode
                                      (65536 + (hi - 55296) * 1024 + (lo - 56320))
                                    +:+ t, rest)
                          | None => None
                          end
                      | _, _ =>
                          match scan_string r5 with
                          | Some (t, rest) => Some (utf8_encode hi +:+ t, rest)
                          | None => None
                          end
                      end
                  | None => None
                  end
              | _ => None
              end
            else
              match simple_escape e with
              | Some c' =>
                  match scan_string r1 with
                  | Some (t, rest) => Some (String c' t, rest)
                  | None => None
                  end
              | None => None
              end
        | EmptyString => None
        end
      else
        match scan_string r with
        | Some (t, rest) => Some (String c t, rest)
        | None => None
        end
  end.

(** [s] without the literal [lit] it begins with. *)
Definition after (lit s : string) : option string :=
  if startswith s lit then Some (str_drop (String.length lit) s) else None.

(** A value that is not a container. *)
Definition scan_atom (s : string) : option (pyval * string) :=
  match s with
  | String c r =>
      if ascii_in 34 34 c then
        match scan_string r with
        | Some (t, rest) => Some (PStr t, rest)
        | None => None
        end
      else
        match after "null" s, after "true" s, after "false" s with
        | Some rest, _, _ => Some (PNone, rest)
        | _, Some rest, _ => Some (PBool true, rest)
        | _, _, Some rest => Some (PBool false, rest)
        | _, _, _ =>
            match scan_number s with
            | Some res => Some res
            | None =>
                match after "NaN" s, after "Infinity" s, after "-Infinity" s with
                | Some rest, _, _ => Some (PFloat S754_nan, rest)
                | _, Some rest, _ => Some (PFloat (S754_infinity false), rest)
                | _, _, Some rest => Some (PFloat (S754_infinity true), rest)
                | _, _, _ => None
                end
            end
        end
  | EmptyString => None
  end.

(** Values, array elements (after an element has to come) and object
    members (after a key has to come). *)
Fixpoint scan_value (fuel : nat) (s : string) : option (pyval * string) :=
  match fuel with
  | O => None
  | S fuel =>
      match s with
      | String c r =>
          if ascii_in 91 91 c then
            match skip_ws r with
            | String c' r' =>
                if ascii_in 93 93 c' then Some (PList [], r')
                else
                  match scan_elements fuel (skip_ws r) with
                  | Some (l, rest) => Some (PList l, rest)
                  | None => None
                  end
            | EmptyString => None
            end
          else if ascii_in 123 123 c then
            match skip_ws r with
            | String c' r' =>
                if ascii_in 125 125 c' then Some (PDict [], r')
                else
                  match scan_members fuel (skip_ws r) with
                  | Some (d, rest) =>
                      Some (PDict (fold_left (fun acc kv => dict_set kv.1 kv.2 acc) d []),
                            rest)
                  | None => None
                  end
            | EmptyString => None
            end
          else scan_atom s
      | EmptyString => None
      end
  end
with scan_elements (fuel : nat) (s : string) : option (list pyval * string) :=
  match fuel with
  | O => None
  | S fuel =>
      match scan_value fuel s with
      | Some (v, r) =>
          match skip_ws r with
          | String c r' =>
              if ascii_in 44 44 c then
                match scan_elements fuel (skip_ws r') with
                | Some (l, rest) => Some (v :: l, rest)
                | None => None
                end
              else if ascii_in 93 93 c then Some ([v], r')
              else None
          | EmptyString => None
          end
      | None => None
      end
  end
with scan_members (fuel : nat) (s : string)
  : option (list (string * pyval) * string) :=
  match fuel with
  | O => None
  | S fuel =>
      match s with
      | String q r =>
          if ascii_in 34 34 q then
            match scan_string r with
            | Some (key, r1) =>
                match skip_ws r1 with
                | String c r2 =>
                    if ascii_in 58 58 c then
                      match scan_value fuel (skip_ws r2) with
                      | Some (v, r3) =>
                          match skip_ws r3 with
                          | String c' r4 =>
                              if ascii_in 44 44 c' then
                                match scan_members fuel (skip_ws r4) with
                                | Some (d, rest) => Some ((key, v) :: d, rest)
                                | None => None
                                end
                              else if ascii_in 125 125 c' then Some ([(key, v)], r4)
                              else None
                          | EmptyString => None
                          end
                      | None => None
                      end
                    else None
                | EmptyString => None
                end
            | None => None
            end
          else None
      | EmptyString => None
      end
  end.

(** [json.loads(s)]: one value, with white space allowed around it. *)
Definition py_json_loads (s : string) : option pyval :=
  match scan_value (2 * String.length s + 2) (skip_ws s) with
  | Some (v, rest) =>
      match skip_ws rest with
      | EmptyString => Some v
      | String _ _ => None
      end
  | None => None
  end.

(** A line written with ['] where the wire has the double quote. *)
Definition dq (s : string) : string :=
  string_of_list_ascii
    (map (fun c => if ascii_in 39 39 c then ascii_of_nat 34 else c)
       (list_ascii_of_string s)).

(** ** What the request translator is compared with *)

(** The content of the last message whose role is [system]. *)
Definition last_system_content (msgs : list Message.t) : option Content :=
  Message.content <$> last (List.filter is_system msgs).

(** The messages whose role is not [system], in their order. *)
Definition non_system (msgs : list Message.t) : list Message.t :=
  List.filter (fun msg => negb (is_system msg)) msgs.

(** ** What the response translators are compared with *)

(** The table of stop reasons as the specification words it. *)
Definition finish_reason_table (stop_reason : string) : string :=
  if String.eqb stop_reason "end_turn" then "stop"
  else if String.eqb stop_reason "max_tokens" then "length"
  else if String.eqb stop_reason "stop_sequence" then "stop"
  else "stop".



(** What the loop does with a line before any decoding: it passes it
    over (blank line, [event: ] line), takes it for the end marker, or
    hands a text to [json.loads]. *)
Inductive line_kind : Type :=
| PassedOver
| EndMarker
| Payload (text : string).

Definition classify (line : string) : line_kind :=
  if (negb (str_truthy line) || String.eqb (strip line) "")%bool then PassedOver
  else
    let line := if startswith line "data: " then str_drop 6 line else line in
    if String.eqb (strip line) "[DONE]" then EndMarker
    else if startswith line "event: " then PassedOver
    else Payload line.

(** The chunk the loop builds from a delta and a finish reason. *)
Definition chunk_of (chunk_id model : string) (created : Z)
    (delta : gmap string pyval) (finish_reason : option string)
  : ChatCompletionChunk.t :=
  ChatCompletionChunk.Build chunk_id "chat.completion.chunk" created model
    [ StreamChoice.Build 0 delta finish_reason ] None.

(** ** [Config.validate] *)

(** The [ValueError] raised, by the check that raises it. *)
Inductive ValueError : Type :=
| InvalidPort (port : Z)
| MaxTokensNotPositive (max_tokens : Z)
| TemperatureOutOfRange (temperature : float)
| TimeoutNotPositive (timeout : Z).

(** The floats that the integers [0] and [2] of the range check equal. *)
Definition float_zero : float := S754_zero false.
Definition float_two : float := S754_finite false 4503599627370496 (-51).

(** [None] when [validate] returns, [Some e] when it raises [e]. *)
Definition Config_validate (self : Config.t) : option ValueError :=
  if ((Config.port self <? 1) || (Config.port self >? 65535))%bool
  then Some (InvalidPort (Config.port self))
  else if Config.max_tokens self <? 1
  then Some (MaxTokensNotPositive (Config.max_tokens self))
  else if negb (SFleb float_zero (Config.temperature self)
                && SFleb (Config.temperature self) float_two)
  then Some (TemperatureOutOfRange (Config.temperature self))
  else if Config.timeout self <? 1
  then Some (TimeoutNotPositive (Config.timeout self))
  else None.

(** ** [ErrorResponse] *)

Module ErrorResponse.
Record t : Type := Build {
  error : gmap string pyval;
}.

(** [ErrorResponse.create(message, type, code)]. *)
Definition create (message type : string) (code : option string) : t :=
  let error_dict : gmap string pyval :=
    {[ "message" := PStr message; "type" := PStr type ]} in
  let error_dict :=
    match code with
    | Some c => set_if (str_truthy c) "code" (PStr c) error_dict
    | None => error_dict
    end in
  Build error_dict.
End ErrorResponse.

(** ** [ZAIProxy.chat_completion] and the [/v1/chat/completions] endpoint *)

(** The exceptions told apart by the two handlers; [OtherException] is any
    other subclass of [Exception]. *)
Inductive exception : Type :=
| HTTPStatusError (status_code : Z) (text : string)
| HTTPException (status_code : Z) (detail : string)
| OtherException (message : string).

(** What [chat_completion] returns: a translated reply, or the generator
    of [_stream_response], which has not run yet and is held here as what
    it will yield once driven by a clock and the backend's lines. *)
Inductive completion : Type :=
| Complete (response : ChatCompletionResponse.t)
| Streaming (generator : (nat -> Z) -> list string -> list sse * ending).

(** What the endpoint returns. *)
Inductive http_response : Type :=
| StreamingResponse (result : completion)
| ModelResponse (result : completion)
| JSONResponse (status_code : Z) (content : ErrorResponse.t).

(** [if request.stream:]. *)
Definition stream_flag (request : ChatCompletionRequest.t) : bool :=
  truthy (option_val PBool (ChatCompletionRequest.stream request)).

Section Endpoint.

Variable json_loads : string -> option pyval.

(** [str(e)]. *)
Variable exception_str : exception -> string.

(** The unary exchange with the backend: [client.post], then
    [raise_for_status] and [response.json()], for the body sent. *)
Variable post : gmap string pyval -> exception + BackendResponse.t.

Definition chat_completion (config : Config.t) (request : ChatCompletionRequest.t)
    (uuid_hex : string) (now : Z) : exception + completion :=
  let attempt : exception + completion :=
    let zai_request := transform_request config request in
    if stream_flag request
    then inr (Streaming (_stream_response json_loads request uuid_hex))
    else
      match post zai_request with
      | inl e => inl e
      | inr zai_response =>
          inr (Complete (_non_stream_response request zai_response uuid_hex now))
      end in
  match attempt with
  | inl e => inl (HTTPException 500 (exception_str e))
  | inr result => inr result
  end.

Definition chat_completions (config : Config.t) (request : ChatCompletionRequest.t)
    (uuid_hex : string) (now : Z) : http_response :=
  match chat_completion config request uuid_hex now with
  | inr result =>
      if stream_flag request then StreamingResponse result else ModelResponse result
  | inl (HTTPStatusError status_code text) =>
      JSONResponse status_code
        (ErrorResponse.create ("Z.ai API error: " +:+ text) "api_error"
           (Some (pretty status_code)))
  | inl e =>
      JSONResponse 500 (ErrorResponse.create (exception_str e) "internal_error" None)
  end.

End Endpoint.

(** ** What the added properties are stated with *)

(** The text a line carries when the loop takes it for a text delta: the
    line reaches the decoder, decodes to an object of kind
    [content_block_delta] whose [delta] is an object of type [text_delta],
    and the text is that object's [text], [""] when it has none. *)
Definition text_delta_of (json_loads : string -> option pyval) (line : string)
  : option pyval :=
  match classify line with
  | Payload payload =>
      match json_loads payload with
      | Some (PDict event) =>
          match dict_lookup "type" event, dict_lookup "delta" event with
          | Some (PStr kind), Some (PDict delta) =>
              match dict_lookup "type" delta with
              | Some (PStr type) =>
                  if (String.eqb kind "content_block_delta"
                      && String.eqb type "text_delta")%bool
                  then Some (default (PStr "") (dict_lookup "text" delta))
                  else None
              | _ => None
              end
          | _, _ => None
          end
      | _ => None
      end
  | _ => None
  end.



(** The texts of the blocks of type [text], a block without [text]
    counting for [""]. *)
Definition text_blocks (blocks : list ContentBlock.t) : list string :=
  omap (fun block =>
          match ContentBlock.type block with
          | Some type =>
              if String.eqb type "text"
              then Some (default "" (ContentBlock.text block)) else None
          | None => None
          end) blocks.

(** The keys the request translator may write. *)
Definition backend_keys : list string :=
  [ "model"; "messages"; "max_tokens"; "stream";
    "system"; "temperature"; "top_p"; "stop_sequences" ].

Definition is_chunk (item : sse) : bool :=
  match item with
  | Chunk _ => true
  | Done => false
  end.

(** ** Sample inputs *)

(** [Config()] with every field at its default. *)
Definition default_config : Config.t :=
  Config.Build "0.0.0.0" 8000 None "https://api.z.ai/v1" "glm-4.5" "glm-4.5v"
    2000 (decimal_to_float false 7 (-1)) 60 3 "INFO" true.

(** [ChatCompletionRequest(model="glm-4.5", messages=msgs)], every other
    field at its default. *)
Definition default_request (msgs : list Message.t) : ChatCompletionRequest.t :=
  ChatCompletionRequest.Build "glm-4.5" msgs
    (Some (decimal_to_float false 7 (-1))) (Some (decimal_to_float false 1 0))
    (Some 1) (Some false) None None
    (Some (S754_zero false)) (Some (S754_zero false)) None None.

Definition with_max_tokens (m : option Z) (r : ChatCompletionRequest.t)
  : ChatCompletionRequest.t :=
  ChatCompletionRequest.Build
    (ChatCompletionRequest.model r) (ChatCompletionRequest.messages r)
    (ChatCompletionRequest.temperature r) (ChatCompletionRequest.top_p r)
    (ChatCompletionRequest.n r) (ChatCompletionRequest.stream r)
    (ChatCompletionRequest.stop r) m
    (ChatCompletionRequest.presence_penalty r)
    (ChatCompletionRequest.frequency_penalty r)
    (ChatCompletionRequest.logit_bias r) (ChatCompletionRequest.user r).

Definition with_stop (s : option Stop) (r : ChatCompletionRequest.t)
  : ChatCompletionRequest.t :=
  ChatCompletionRequest.Build
    (ChatCompletionRequest.model r) (ChatCompletionRequest.messages r)
    (ChatCompletionRequest.temperature r) (ChatCompletionRequest.top_p r)
    (ChatCompletionRequest.n r) (ChatCompletionRequest.stream r)
    s (ChatCompletionRequest.max_tokens r)
    (ChatCompletionRequest.presence_penalty r)
    (ChatCompletionRequest.frequency_penalty r)
    (ChatCompletionRequest.logit_bias r) (ChatCompletionRequest.user r).

Definition hello : Message.t := Message.Build user (Text "Hello") None.

Definition sample_uuid_hex : string := "3f2a9c0d5e7b41c8a6d0f1e2b3c4d5e6".

Definition sample_clock (k : nat) : Z := 1700000000 + Z.of_nat k.

Definition sample_response (stop_reason : option string)
    (usage : option BackendUsage.t) : BackendResponse.t :=
  BackendResponse.Build (Some "msg_01")
    (Some [ContentBlock.Build (Some "text") (Some "Hi")]) stop_reason usage.

(** The stream translator with the decoder above, on the sample request. *)
Definition sample_stream (lines : list string) : list sse * ending :=
  _stream_response py_json_loads (default_request [hello]) sample_uuid_hex
    sample_clock lines.

(** * Properties *)

(** ** The request translator *)

Lemma fold_transform_request_step (msgs : list Message.t)
    (system_content : option Content) (messages : list pyval) :
  fold_left transform_request_step msgs (system_content, messages)
  = (from_option Some system_content (last_system_content msgs),
     messages ++ (Message_model_dump <$> non_system msgs)).
Proof.
  revert system_content messages.
  induction msgs as [|msg msgs IH]; intros system_content messages; simpl.
  - by rewrite app_nil_r.
  - unfold last_system_content, non_system in *. simpl.
    destruct (is_system msg) eqn:Hsys; simpl; rewrite IH.
    + f_equal. destruct (List.filter is_system msgs) as [|m ms] eqn:Hf; simpl.
      * done.
      * destruct (last (m :: ms)) eqn:Hl; [done | by apply last_None in Hl].
    + by rewrite <- app_assoc.
Qed.

Section TransformRequest.

Variable config : Config.t.
Variable request : ChatCompletionRequest.t.

Ltac transform_request_cases :=
  unfold transform_request;
  rewrite fold_transform_request_step;
  destruct (last_system_content (ChatCompletionRequest.messages request))
    as [[[|? ?]|[|? ?]]|];
  destruct (ChatCompletionRequest.temperature request);
  destruct (ChatCompletionRequest.top_p request);
  destruct (ChatCompletionRequest.stop request) as [[[|? ?]|[|? ?]]|];
  cbv beta iota zeta
    delta [set_if from_option Content_truthy str_truthy list_truthy fmap option_fmap
           option_map].

Ltac lookup_literal :=
  repeat (rewrite lookup_insert_ne by discriminate);
  first [ reflexivity | apply lookup_insert_eq | apply lookup_empty ].

(** C3. A [temperature] (respectively [top_p]) of [None] leaves the
    backend request without a ["temperature"] (respectively ["top_p"])
    key, and a value that is present is copied as it is. *)
Theorem transform_request_sampling :
  transform_request config request !! "temperature"
  = PFloat <$> ChatCompletionRequest.temperature request
  ∧ transform_request config request !! "top_p"
    = PFloat <$> ChatCompletionRequest.top_p request.
Proof. split; transform_request_cases; lookup_literal. Qed.

(** C4, amended. The backend request always has a ["max_tokens"] key
    holding an integer: the request's [max_tokens] when that is present
    and not zero, and the configured default when it is absent, [None]
    or zero. *)
Theorem transform_request_max_tokens :
  transform_request config request !! "max_tokens"
  = Some (PInt (match ChatCompletionRequest.max_tokens request with
                | Some m => if m =? 0 then Config.max_tokens config else m
                | None => Config.max_tokens config
                end)).
Proof.
  transform_request_cases;
    repeat (rewrite lookup_insert_ne by discriminate); rewrite lookup_insert_eq;
    unfold int_or; destruct (ChatCompletionRequest.max_tokens request) as [m|];
    simpl; try destruct (m =? 0); done.
Qed.

(** C5, amended. A [stop] that is a non-empty string [s] becomes
    ["stop_sequences": [s]], a [stop] that is a non-empty list is copied
    under ["stop_sequences"], and a [stop] that is [None], the empty
    string or the empty list leaves the backend request without that key;
    no key named ["stop"] is written. *)
Theorem transform_request_stop :
  transform_request config request !! "stop_sequences"
  = match ChatCompletionRequest.stop request with
    | Some (StopStr s) => if str_truthy s then Some (PList [PStr s]) else None
    | Some (StopList l) => if list_truthy l then Some (PList (PStr <$> l)) else None
    | None => None
    end
  ∧ transform_request config request !! "stop" = None.
Proof. split; transform_request_cases; lookup_literal. Qed.

(** C6, amended. The content of the last [system] message goes to the
    ["system"] key when that content is not empty (no [system] message,
    or an empty content in the last one, leaves the key out); the
    ["messages"] key holds the dumps of the messages of the other roles,
    and only those, in their original order. *)
Theorem transform_request_system :
  transform_request config request !! "system"
  = match last_system_content (ChatCompletionRequest.messages request) with
    | Some c => if Content_truthy c then Some (Content_val c) else None
    | None => None
    end
  ∧ transform_request config request !! "messages"
    = Some (PList (Message_model_dump
                     <$> non_system (ChatCompletionRequest.messages request))).
Proof. split; transform_request_cases; lookup_literal. Qed.

End TransformRequest.

(** C4 as stated fails: a [max_tokens] of [0] is present and not [None],
    and the backend request carries the configured [2000] instead. *)
Lemma max_tokens_zero_is_replaced :
  let request := with_max_tokens (Some 0) (default_request [hello]) in
  ChatCompletionRequest.max_tokens request = Some 0
  ∧ transform_request default_config request !! "max_tokens" = Some (PInt 2000).
Proof. split; [reflexivity | by vm_compute]. Qed.

(** C5 as stated fails: for the bare string [""] the backend request has
    no ["stop_sequences"], where the claim has [[""]]; for the empty list
    it has none either, where the claim has the list copied. *)
Lemma empty_stop_is_dropped :
  transform_request default_config
    (with_stop (Some (StopStr "")) (default_request [hello])) !! "stop_sequences"
  = None
  ∧ transform_request default_config
      (with_stop (Some (StopList [])) (default_request [hello])) !! "stop_sequences"
    = None.
Proof. split; by vm_compute. Qed.

(** C6 as stated fails: the only [system] message has the content [""],
    and the backend request has no ["system"] key. *)
Lemma empty_system_is_dropped :
  let msgs := [Message.Build system (Text "") None; hello] in
  last_system_content msgs = Some (Text "")
  ∧ transform_request default_config (default_request msgs) !! "system" = None.
Proof. split; [reflexivity | by vm_compute]. Qed.

(** ** The reply translator *)

Lemma finish_reason_map_table (stop_reason : string) :
  default "stop" (finish_reason_map !! stop_reason) = finish_reason_table stop_reason.
Proof.
  unfold finish_reason_map, finish_reason_table.
  destruct (String.eqb_spec stop_reason "end_turn") as [->|H1]; [done|].
  destruct (String.eqb_spec stop_reason "max_tokens") as [->|H2]; [done|].
  destruct (String.eqb_spec stop_reason "stop_sequence") as [->|H3]; [done|].
  by rewrite !lookup_insert_ne, lookup_singleton_ne by done.
Qed.

(** C8. The usage of the translated reply has [prompt_tokens] equal to
    the backend's [input_tokens] and [completion_tokens] equal to its
    [output_tokens], each [0] when missing, and [total_tokens] equal to
    their sum; nothing of the request enters it, and a backend usage of
    zero gives a total of zero whatever the request is. *)
Theorem non_stream_usage (request : ChatCompletionRequest.t)
    (zai_response : BackendResponse.t) (uuid_hex : string) (now : Z) :
  let usage :=
    ChatCompletionResponse.usage
      (_non_stream_response request zai_response uuid_hex now) in
  let backend := default BackendUsage.empty (BackendResponse.usage zai_response) in
  (Usage.prompt_tokens usage = default 0 (BackendUsage.input_tokens backend)
   ∧ Usage.completion_tokens usage = default 0 (BackendUsage.output_tokens backend)
   ∧ Usage.total_tokens usage
     = Usage.prompt_tokens usage + Usage.completion_tokens usage)
  ∧ (∀ request', 
       ChatCompletionResponse.usage
         (_non_stream_response request' zai_response uuid_hex now) = usage)
  ∧ (∀ id content stop_reason,
       Usage.total_tokens
         (ChatCompletionResponse.usage
            (_non_stream_response request
               (BackendResponse.Build id content stop_reason
                  (Some (BackendUsage.Build (Some 0) (Some 0))))
               uuid_hex now)) = 0).
Proof. by repeat split. Qed.

(** ** The stream translator *)

Section StreamProperties.

Variable json_loads : string -> option pyval.

Implicit Types (line text chunk_id model uuid_hex : string).
Implicit Types (lines pre post : list string) (clock : nat -> Z) (k : nat).

(** The turn of the loop, read through [classify]. *)
Lemma stream_turn_classify line :
  stream_turn json_loads line
  = match classify line with
    | PassedOver => Continue
    | EndMarker => YieldDoneBreak
    | Payload text =>
        match json_loads text with
        | None => Continue
        | Some zai_chunk =>
            match dispatch_event zai_chunk with
            | inl e => Raise e
            | inr None => Continue
            | inr (Some (delta, finish_reason)) => YieldChunk delta finish_reason
            end
        end
    end.
Proof.
  unfold stream_turn, classify.
  destruct (negb (str_truthy line) || String.eqb (strip line) "")%bool; [done|].
  destruct (String.eqb (strip _) "[DONE]"); [done|].
  by destruct (startswith _ "event: ").
Qed.

(** A turn that ends in [continue] leaves no trace in the stream. *)
Lemma stream_loop_continue chunk_id model clock k pre line post :
  stream_turn json_loads line = Continue →
  stream_loop json_loads chunk_id model clock k (pre ++ line :: post)
  = stream_loop json_loads chunk_id model clock k (pre ++ post).
Proof.
  intros Hturn. revert k.
  induction pre as [|l pre IH]; intros k; simpl.
  - by rewrite Hturn.
  - destruct (stream_turn json_loads l) as [|delta finish_reason| |e];
      [apply IH| |done|done].
    destruct (delta_serializable delta); [|done]. by rewrite IH.
Qed.



Lemma dispatch_event_message_stop (event : list (string * pyval)) :
  dict_lookup "type" event = Some (PStr "message_stop") →
  dispatch_event (PDict event) = inr None.
Proof. unfold dispatch_event; simpl. by intros ->. Qed.

Lemma dispatch_event_message_delta (event delta : list (string * pyval))
    (stop_reason : string) :
  dict_lookup "type" event = Some (PStr "message_delta") →
  dict_lookup "delta" event = Some (PDict delta) →
  dict_lookup "stop_reason" delta = Some (PStr stop_reason) →
  dispatch_event (PDict event)
  = inr (Some (∅, if str_truthy stop_reason
                  then Some (finish_reason_table stop_reason) else None)).
Proof.
  intros Hkind Hdelta Hstop.
  unfold dispatch_event; simpl. rewrite Hkind; simpl.
  rewrite Hdelta; simpl. rewrite Hstop; simpl.
  destruct stop_reason; simpl; [done|].
  by rewrite finish_reason_map_table.
Qed.


(** C2, amended. A [message_stop] event produces no chunk of its own
    and does not end the loop: the stream is translated as if the line
    were not there, the lines after it included. *)
Theorem message_stop_is_passed_over request uuid_hex clock pre line post
    text (event : list (string * pyval)) :
  classify line = Payload text →
  json_loads text = Some (PDict event) →
  dict_lookup "type" event = Some (PStr "message_stop") →
  _stream_response json_loads request uuid_hex clock (pre ++ line :: post)
  = _stream_response json_loads request uuid_hex clock (pre ++ post).
Proof.
  intros Hline Htext Hkind. apply stream_loop_continue.
  by rewrite stream_turn_classify, Hline, Htext, dispatch_event_message_stop.
Qed.

(** C7, amended. The reply translator maps the backend's [stop_reason]
    (["stop"] when missing) through the table [end_turn -> stop],
    [max_tokens -> length], [stop_sequence -> stop], anything else
    [-> stop]. The stream translator maps the [stop_reason] of a
    [message_delta] event through the same table when it is not the
    empty string, and gives no finish reason when it is. *)
Theorem stop_reason_mapping :
  (∀ request zai_response uuid_hex now,
     Choice.finish_reason
       <$> ChatCompletionResponse.choices
             (_non_stream_response request zai_response uuid_hex now)
     = [ Some (finish_reason_table
                 (default "stop" (BackendResponse.stop_reason zai_response))) ])
  ∧ (∀ line text (event delta : list (string * pyval)) stop_reason,
       classify line = Payload text →
       json_loads text = Some (PDict event) →
       dict_lookup "type" event = Some (PStr "message_delta") →
       dict_lookup "delta" event = Some (PDict delta) →
       dict_lookup "stop_reason" delta = Some (PStr stop_reason) →
       stream_turn json_loads line
       = YieldChunk ∅ (if str_truthy stop_reason
                       then Some (finish_reason_table stop_reason) else None)).
Proof.
  split.
  - intros. simpl. by rewrite finish_reason_map_table.
  - intros line text event delta stop_reason Hline Htext Hkind Hdelta Hstop.
    rewrite stream_turn_classify, Hline, Htext.
    by rewrite (dispatch_event_message_delta _ _ _ Hkind Hdelta Hstop).
Qed.

(** C9, amended. A line that reaches [json.loads] and makes it raise
    [JSONDecodeError] is skipped: what the generator yields, and how it
    ends, are what they are without that line. *)
Theorem malformed_line_is_skipped request uuid_hex clock pre line post text :
  classify line = Payload text →
  json_loads text = None →
  _stream_response json_loads request uuid_hex clock (pre ++ line :: post)
  = _stream_response json_loads request uuid_hex clock (pre ++ post).
Proof.
  intros Hline Htext. apply stream_loop_continue.
  by rewrite stream_turn_classify, Hline, Htext.
Qed.

Lemma stream_loop_items chunk_id model clock k lines :
  Forall (λ item,
            item = Done
            ∨ ∃ created delta finish_reason,
                item = Chunk (chunk_of chunk_id model created delta finish_reason))
    (stream_loop json_loads chunk_id model clock k lines).1.
Proof.
  revert k. induction lines as [|line lines IH]; intros k; simpl.
  - constructor.
  - destruct (stream_turn json_loads line) as [|delta finish_reason| |e]; simpl.
    + apply IH.
    + destruct (delta_serializable delta); [|constructor].
      specialize (IH (S k)).
      destruct (stream_loop json_loads chunk_id model clock (S k) lines); simpl in *.
      constructor; [right; eauto | done].
    + constructor; [by left | constructor].
    + constructor.
Qed.

(** C10. Every chunk the generator yields for one stream carries the
    identifier fixed before the first line is read, and holds exactly
    one choice, whose index is 0. *)
Theorem stream_chunks_share_id request uuid_hex clock lines :
  Forall (λ item,
            match item with
            | Done => True
            | Chunk chunk =>
                ChatCompletionChunk.id chunk = "chatcmpl-" +:+ str_take 8 uuid_hex
                ∧ ∃ choice,
                    ChatCompletionChunk.choices chunk = [choice]
                    ∧ StreamChoice.index choice = 0
            end)
    (_stream_response json_loads request uuid_hex clock lines).1.
Proof.
  unfold _stream_response.
  eapply Forall_impl; [apply stream_loop_items|].
  intros item [->|(created & delta & finish_reason & ->)]; [done|].
  split; [done|]. by eexists.
Qed.

End StreamProperties.

(** ** The stream translator on sample lines *)



(** C2 as stated fails: the [content_block_start] line that follows a
    [message_stop] line is translated into a chunk. *)
Lemma line_after_message_stop_is_emitted :
  sample_stream [ dq "data: {'type': 'message_stop'}";
                  dq "data: {'type': 'content_block_start', 'index': 1}" ]
  = ([Chunk (chunk_of "chatcmpl-3f2a9c0d" "glm-4.5" 1700000000
               {[ "role" := PStr "assistant"; "content" := PStr "" ]} None)],
     Returned).
Proof. by vm_compute. Qed.

(** The amended C2 at a [message_stop] line between two other lines. *)
Lemma message_stop_is_passed_over_witness :
  let stop := dq "data: {'type': 'message_stop'}" in
  let start := dq "data: {'type': 'content_block_start', 'index': 1}" in
  sample_stream ([start] ++ stop :: [start]) = sample_stream ([start] ++ [start]).
Proof.
  apply (message_stop_is_passed_over py_json_loads (default_request [hello])
           sample_uuid_hex sample_clock
           [dq "data: {'type': 'content_block_start', 'index': 1}"]
           (dq "data: {'type': 'message_stop'}")
           [dq "data: {'type': 'content_block_start', 'index': 1}"]
           (dq "{'type': 'message_stop'}")
           [("type", PStr "message_stop")]).
  - reflexivity.
  - reflexivity.
  - reflexivity.
Defined.

(** C7 as stated fails on the stream path: a [message_delta] whose
    [stop_reason] is the empty string gets no finish reason, where the
    table has ["stop"] for it. *)
Lemma empty_stop_reason_has_no_finish_reason :
  sample_stream [dq "data: {'type': 'message_delta', 'delta': {'stop_reason': ''}}"]
  = ([Chunk (chunk_of "chatcmpl-3f2a9c0d" "glm-4.5" 1700000000 ∅ None)], Returned)
  ∧ finish_reason_table "" = "stop".
Proof. split; by vm_compute. Qed.

(** The amended C7 at a [message_delta] line with [max_tokens]. *)
Lemma stop_reason_mapping_witness :
  stream_turn py_json_loads
    (dq "data: {'type': 'message_delta', 'delta': {'stop_reason': 'max_tokens'}}")
  = YieldChunk ∅ (Some "length").
Proof.
  apply (proj2 (stop_reason_mapping py_json_loads)
           (dq "data: {'type': 'message_delta', 'delta': {'stop_reason': 'max_tokens'}}")
           (dq "{'type': 'message_delta', 'delta': {'stop_reason': 'max_tokens'}}")
           [("type", PStr "message_delta");
            ("delta", PDict [("stop_reason", PStr "max_tokens")])]
           [("stop_reason", PStr "max_tokens")]
           "max_tokens").
  - reflexivity.
  - reflexivity.
  - reflexivity.
  - reflexivity.
  - reflexivity.
Defined.

(** C9 at a truncated payload between two events. *)
Lemma malformed_line_is_skipped_witness :
  let start := dq "data: {'type': 'content_block_start', 'index': 0}" in
  let delta :=
    dq "data: {'type': 'content_block_delta', 'delta': {'type': 'text_delta', 'text': 'Hi'}}" in
  classify "data: {oops" = Payload "{oops"
  ∧ py_json_loads "{oops" = None
  ∧ sample_stream ([start] ++ "data: {oops" :: [delta])
    = sample_stream ([start] ++ [delta]).
Proof.
  split; [reflexivity|]. split; [reflexivity|].
  apply (malformed_line_is_skipped py_json_loads (default_request [hello])
           sample_uuid_hex sample_clock
           [dq "data: {'type': 'content_block_start', 'index': 0}"]
           "data: {oops"
           [dq "data: {'type': 'content_block_delta', 'delta': {'type': 'text_delta', 'text': 'Hi'}}"]
           "{oops").
  - reflexivity.
  - reflexivity.
Defined.

(** A payload that decodes to something other than an object is not a
    decoding failure: [.get] raises [AttributeError], which the loop does
    not catch, and the stream ends there. *)
Example non_object_payload_raises :
  sample_stream [ dq "data: {'type': 'content_block_start', 'index': 0}";
                  "data: 42";
                  dq "data: {'type': 'message_stop'}" ]
  = ([Chunk (chunk_of "chatcmpl-3f2a9c0d" "glm-4.5" 1700000000
               {[ "role" := PStr "assistant"; "content" := PStr "" ]} None)],
     Raised AttributeError).
Proof. by vm_compute. Qed.

(** The run of the specification's sample stream: four chunks, the text
    [Hi!] in the deltas, [stop] on the last one, then the end marker. *)
Example sample_stream_run :
  sample_stream
    [ "event: content_block_start";
      dq "data: {'type': 'content_block_start', 'index': 0}";
      "";
      dq "data: {'type': 'content_block_delta', 'delta': {'type': 'text_delta', 'text': 'Hi'}}";
      dq "data: {'type': 'content_block_delta', 'delta': {'type': 'text_delta', 'text': '!'}}";
      dq "data: {'type': 'message_delta', 'delta': {'stop_reason': 'end_turn'}}";
      dq "data: {'type': 'message_stop'}";
      "data: [DONE]";
      dq "data: {'type': 'content_block_start', 'index': 0}" ]
  = ([ Chunk (chunk_of "chatcmpl-3f2a9c0d" "glm-4.5" 1700000000
                {[ "role" := PStr "assistant"; "content" := PStr "" ]} None);
       Chunk (chunk_of "chatcmpl-3f2a9c0d" "glm-4.5" 1700000001
                {[ "content" := PStr "Hi" ]} None);
       Chunk (chunk_of "chatcmpl-3f2a9c0d" "glm-4.5" 1700000002
                {[ "content" := PStr "!" ]} None);
       Chunk (chunk_of "chatcmpl-3f2a9c0d" "glm-4.5" 1700000003 ∅ (Some "stop"));
       Done ],
     Returned).
Proof. by vm_compute. Qed.

(** * Further properties *)

(** ** The stream loop as a whole *)

Section StreamLoop.

Variable json_loads : string -> option pyval.

Implicit Types (line chunk_id model uuid_hex : string).
Implicit Types (lines pre post : list string) (clock : nat -> Z) (k : nat).

Lemma stream_loop_break chunk_id model clock k pre line post :
  stream_turn json_loads line = YieldDoneBreak →
  stream_loop json_loads chunk_id model clock k (pre ++ line :: post)
  = stream_loop json_loads chunk_id model clock k (pre ++ [line]).
Proof.
  intros Hturn. revert k.
  induction pre as [|l pre IH]; intros k; simpl.
  - by rewrite Hturn.
  - destruct (stream_turn json_loads l) as [|delta finish_reason| |e']; [apply IH| |done|done].
    destruct (delta_serializable delta); [|done]. by rewrite IH.
Qed.

Lemma stream_loop_raise chunk_id model clock k pre line post e :
  stream_turn json_loads line = Raise e →
  stream_loop json_loads chunk_id model clock k (pre ++ line :: post)
  = stream_loop json_loads chunk_id model clock k (pre ++ [line]).
Proof.
  intros Hturn. revert k.
  induction pre as [|l pre IH]; intros k; simpl.
  - by rewrite Hturn.
  - destruct (stream_turn json_loads l) as [|delta finish_reason| |e']; [apply IH| |done|done].
    destruct (delta_serializable delta); [|done]. by rewrite IH.
Qed.

Lemma stream_loop_length chunk_id model clock k lines :
  (length (stream_loop json_loads chunk_id model clock k lines).1 ≤ length lines)%nat.
Proof.
  revert k. induction lines as [|line lines IH]; intros k; simpl; [done|].
  destruct (stream_turn json_loads line) as [|delta finish_reason| |e]; simpl.
  - specialize (IH k). lia.
  - destruct (delta_serializable delta); simpl; [|lia].
    specialize (IH (S k)).
    destruct (stream_loop json_loads chunk_id model clock (S k) lines); simpl in *. lia.
  - lia.
  - lia.
Qed.

Lemma stream_loop_shape chunk_id model clock k lines :
  ∃ chunks,
    forallb is_chunk chunks = true
    ∧ ((stream_loop json_loads chunk_id model clock k lines).1 = chunks
       ∨ (stream_loop json_loads chunk_id model clock k lines).1 = chunks ++ [Done]
         ∧ (stream_loop json_loads chunk_id model clock k lines).2 = Returned).
Proof.
  revert k. induction lines as [|line lines IH]; intros k; simpl.
  - exists []. by split; [|left].
  - destruct (stream_turn json_loads line) as [|delta finish_reason| |e0]; simpl.
    + apply IH.
    + destruct (delta_serializable delta); simpl;
        [|exists []; by split; [|left]].
      specialize (IH (S k)).
      destruct (stream_loop json_loads chunk_id model clock (S k) lines) as [items e].
      destruct IH as (chunks & Hchunks & Hitems). simpl in *.
      eexists (Chunk _ :: chunks). split; [done|].
      destruct Hitems as [->|[-> ->]]; [by left | by right].
    + exists []. split; [done|]. by right.
    + exists []. by split; [|left].
Qed.

Lemma stream_loop_prefix chunk_id model clock k pre post :
  (stream_loop json_loads chunk_id model clock k pre).1
  `prefix_of` (stream_loop json_loads chunk_id model clock k (pre ++ post)).1.
Proof.
  revert k. induction pre as [|line pre IH]; intros k; simpl.
  - apply prefix_nil.
  - destruct (stream_turn json_loads line) as [|delta finish_reason| |e]; simpl.
    + apply IH.
    + destruct (delta_serializable delta); [|done].
      specialize (IH (S k)).
      destruct (stream_loop json_loads chunk_id model clock (S k) pre),
               (stream_loop json_loads chunk_id model clock (S k) (pre ++ post));
        simpl in *.
      by apply prefix_cons.
    + done.
    + done.
Qed.

(** X1. A line that is the end marker (the text [[DONE]], with or without
    the [data: ] prefix and surrounding white space) closes the stream:
    read first it makes the generator yield the marker and return, and
    wherever it stands the lines after it have no effect on what is
    yielded or on how the stream ends. *)
Theorem end_marker_closes_stream request uuid_hex clock pre line post :
  classify line = EndMarker →
  _stream_response json_loads request uuid_hex clock (line :: post)
  = ([Done], Returned)
  ∧ _stream_response json_loads request uuid_hex clock (pre ++ line :: post)
    = _stream_response json_loads request uuid_hex clock (pre ++ [line]).
Proof.
  intros Hline.
  assert (stream_turn json_loads line = YieldDoneBreak) as Hturn
    by (by rewrite stream_turn_classify, Hline).
  split.
  - unfold _stream_response; simpl. by rewrite Hturn.
  - by apply stream_loop_break.
Qed.

(** X2. A line made of white space only is passed over: the stream is
    translated as if the line were not there. *)
Theorem blank_line_is_passed_over request uuid_hex clock pre line post :
  strip line = "" →
  _stream_response json_loads request uuid_hex clock (pre ++ line :: post)
  = _stream_response json_loads request uuid_hex clock (pre ++ post).
Proof.
  intros Hblank. apply stream_loop_continue.
  rewrite stream_turn_classify. unfold classify. rewrite Hblank; simpl.
  by rewrite orb_true_r.
Qed.

(** X4. Each line makes the generator yield at most one item. *)
Theorem stream_yields_at_most_one_item_per_line request uuid_hex clock lines :
  (length (_stream_response json_loads request uuid_hex clock lines).1
   ≤ length lines)%nat.
Proof. apply stream_loop_length. Qed.

(** X5. What the generator yields is a run of chunks, closed by the end
    marker or not; when the marker is there it is the last item and the
    generator has returned, so a stream that an exception cuts short
    carries no end marker. *)
Theorem stream_items_shape request uuid_hex clock lines :
  ∃ chunks,
    forallb is_chunk chunks = true
    ∧ ((_stream_response json_loads request uuid_hex clock lines).1 = chunks
       ∨ (_stream_response json_loads request uuid_hex clock lines).1
         = chunks ++ [Done]
         ∧ (_stream_response json_loads request uuid_hex clock lines).2 = Returned).
Proof. apply stream_loop_shape. Qed.

(** X6. The translation is online: what the generator has yielded after a
    part of the lines is the beginning of what it yields after more of
    them, so nothing yielded is ever changed by later input. *)
Theorem stream_is_monotone request uuid_hex clock pre post :
  (_stream_response json_loads request uuid_hex clock pre).1
  `prefix_of` (_stream_response json_loads request uuid_hex clock (pre ++ post)).1.
Proof. apply stream_loop_prefix. Qed.

End StreamLoop.

(** ** Lines that announce an event kind *)

Lemma ws_head_letter (l : list ascii) : ws_head ("e"%char :: l) = None.
Proof. by destruct l as [|c2 [|c3 l]]. Qed.

Lemma ws_last_letter (l : list ascii) :
  ws_last (l ++ ["e"%char]) = None
  ∨ ∃ l', ws_last (l ++ ["e"%char]) = Some (l' ++ ["e"%char]).
Proof.
  destruct l as [|a [|b [|c l]]]; simpl.
  - by left.
  - destruct (ascii_in 9 13 a || ascii_in 28 32 a)%bool; [right; by exists []|].
    by left.
  - destruct (ascii_in 9 13 a || ascii_in 28 32 a)%bool; [right; by exists [b]|].
    destruct (is_ws [b; a]); [right; by exists []|].
    by left.
  - destruct (ascii_in 9 13 a || ascii_in 28 32 a)%bool;
      [right; by exists (b :: c :: l)|].
    destruct (is_ws [b; a]); [right; by exists (c :: l)|].
    destruct (is_ws [c; b; a]); [right; by exists l|].
    by left.
Qed.

Lemma strip_with_ws_last_letter (fuel : nat) (l : list ascii) :
  ∃ l', strip_with ws_last fuel (l ++ ["e"%char]) = l' ++ ["e"%char].
Proof.
  revert l. induction fuel as [|fuel IH]; intros l; cbn [strip_with]; [by exists l|].
  destruct (ws_last_letter l) as [-> | (l' & ->)]; [by exists l | apply IH].
Qed.

Lemma strip_with_ws_head_letter (fuel : nat) (l : list ascii) :
  strip_with ws_head fuel ("e"%char :: l) = "e"%char :: l.
Proof. destruct fuel; cbn [strip_with]; [done|]. by rewrite ws_head_letter. Qed.

(** [strip] leaves the first letter of an [event: ] line in place. *)
Lemma strip_event (name : string) :
  ∃ rest, strip ("event: " +:+ name) = String "e" rest.
Proof.
  unfold strip. simpl list_ascii_of_string.
  rewrite strip_with_ws_head_letter.
  cbn [rev].
  match goal with
  | |- context [strip_with ws_last ?n (?l ++ ["e"%char])] =>
      destruct (strip_with_ws_last_letter n l) as (l' & ->)
  end.
  rewrite rev_app_distr; simpl. by eexists.
Qed.

Lemma classify_event (name : string) : classify ("event: " +:+ name) = PassedOver.
Proof.
  destruct (strip_event name) as (rest & Hstrip).
  assert (startswith ("event: " +:+ name) "data: " = false) as Hdata by reflexivity.
  assert (startswith ("event: " +:+ name) "event: " = true) as Hevent by (by destruct name).
  unfold classify. cbv zeta. by rewrite Hdata, !Hstrip, Hevent.
Qed.

Section StreamEvents.

Variable json_loads : string -> option pyval.

Implicit Types (line payload chunk_id model uuid_hex : string).
Implicit Types (lines pre post : list string) (clock : nat -> Z) (k : nat).

(** X3. A line that only announces an event kind, [event: ] followed by
    anything, is passed over without being decoded: the stream is
    translated as if the line were not there. *)
Theorem event_line_is_passed_over request uuid_hex clock pre name post :
  _stream_response json_loads request uuid_hex clock
    (pre ++ ("event: " +:+ name) :: post)
  = _stream_response json_loads request uuid_hex clock (pre ++ post).
Proof.
  apply stream_loop_continue.
  by rewrite stream_turn_classify, classify_event.
Qed.

(** X7. A payload that decodes to anything but an object (a number, a
    string, a list, [null], ...) is not skipped: reading its kind raises
    [AttributeError], which the loop does not catch. The stream ends there
    with that exception, without this line or any later one yielding
    anything. *)
Theorem non_object_payload_aborts request uuid_hex clock pre line post payload value :
  classify line = Payload payload →
  json_loads payload = Some value →
  (∀ event, value ≠ PDict event) →
  _stream_response json_loads request uuid_hex clock (line :: post)
  = ([], Raised AttributeError)
  ∧ _stream_response json_loads request uuid_hex clock (pre ++ line :: post)
    = _stream_response json_loads request uuid_hex clock (pre ++ [line]).
Proof.
  intros Hline Hload Hvalue.
  assert (stream_turn json_loads line = Raise AttributeError) as Hturn.
  { rewrite stream_turn_classify, Hline, Hload.
    destruct value; try done. by destruct (Hvalue d). }
  split.
  - unfold _stream_response; simpl. by rewrite Hturn.
  - by apply (stream_loop_raise _ _ _ _ _ _ _ _ _ Hturn).
Qed.

(** X8. A [message_delta] whose [stop_reason] is a non-empty list or
    object cannot be looked up in the table: the lookup raises
    [TypeError], and the stream ends there with that exception. *)
Theorem unhashable_stop_reason_aborts request uuid_hex clock line post payload
    (event delta : list (string * pyval)) stop_reason :
  classify line = Payload payload →
  json_loads payload = Some (PDict event) →
  dict_lookup "type" event = Some (PStr "message_delta") →
  dict_lookup "delta" event = Some (PDict delta) →
  dict_lookup "stop_reason" delta = Some stop_reason →
  (∃ x l, stop_reason = PList (x :: l)) ∨ (∃ x d, stop_reason = PDict (x :: d)) →
  _stream_response json_loads request uuid_hex clock (line :: post)
  = ([], Raised TypeError).
Proof.
  intros Hline Hload Hkind Hdelta Hstop Hshape.
  unfold _stream_response; simpl.
  rewrite stream_turn_classify, Hline, Hload.
  unfold dispatch_event; simpl. rewrite Hkind; simpl.
  rewrite Hdelta; simpl. rewrite Hstop; simpl.
  by destruct Hshape as [(x & l & ->) | (x & d & ->)].
Qed.

Lemma stream_turn_text_delta line text :
  text_delta_of json_loads line = Some text →
  stream_turn json_loads line = YieldChunk {[ "content" := text ]} None.
Proof.
  unfold text_delta_of. rewrite stream_turn_classify.
  destruct (classify line) as [| |payload]; try done.
  destruct (json_loads payload) as [[| | | | | |event]|]; try done.
  unfold dispatch_event; simpl.
  destruct (dict_lookup "type" event) as [[| | | |kind| |]|]; try done.
  destruct (dict_lookup "delta" event) as [[| | | | | |delta]|]; try done.
  destruct (String.eqb_spec kind "content_block_delta") as [->|];
    [simpl | by destruct (dict_lookup "type" delta) as [[| | | |type| |]|]].
  destruct (dict_lookup "type" delta) as [[| | | |type| |]|]; try done.
  destruct (String.eqb_spec type "text_delta") as [->|]; [|done].
  simpl. by intros [= <-].
Qed.

Lemma delta_serializable_content (text : pyval) :
  delta_serializable {[ "content" := text ]} = serializable text.
Proof.
  unfold delta_serializable. rewrite map_to_list_singleton; simpl.
  by rewrite andb_true_r.
Qed.




(** X15. A text delta whose text is a string with a lone surrogate
    cannot be written: serializing its chunk raises
    [PydanticSerializationError], which the loop does not catch, so the
    stream ends there with that exception and neither this line nor any
    later one yields anything. *)
Theorem surrogate_text_aborts request uuid_hex clock line post text :
  text_delta_of json_loads line = Some (PStr text) →
  has_surrogate text = true →
  _stream_response json_loads request uuid_hex clock (line :: post)
  = ([], Raised PydanticSerializationError).
Proof.
  intros Hline Htext. unfold _stream_response; simpl.
  rewrite (stream_turn_text_delta _ _ Hline), delta_serializable_content; simpl.
  by rewrite Htext.
Qed.

End StreamEvents.

(** ** The reply translator, the request translator and the endpoint *)

Lemma str_app_assoc (a b c : string) : (a +:+ b) +:+ c = a +:+ (b +:+ c).
Proof.
  induction a as [|x a IH]; [reflexivity|].
  change (String x ((a +:+ b) +:+ c) = String x (a +:+ (b +:+ c))).
  by rewrite IH.
Qed.

Lemma str_app_empty_r (a : string) : a +:+ "" = a.
Proof.
  induction a as [|x a IH]; [reflexivity|].
  change (String x (a +:+ "") = String x a).
  by rewrite IH.
Qed.

Lemma fold_content_text_step (blocks : list ContentBlock.t) (content_text : string) :
  fold_left content_text_step blocks content_text
  = content_text +:+ foldr String.app "" (text_blocks blocks).
Proof.
  revert content_text.
  induction blocks as [|block blocks IH]; intros content_text; simpl.
  - by rewrite str_app_empty_r.
  - rewrite IH. unfold content_text_step, text_blocks; simpl.
    destruct (ContentBlock.type block) as [type|]; simpl; [|done].
    destruct (String.eqb type "text"); simpl; [|done].
    by rewrite str_app_assoc.
Qed.

(** X10. The translated reply has one choice, at index 0, whose message
    has the role [assistant] and whose content is the texts of the
    backend's blocks of type [text] joined in their order; blocks of other
    types, and blocks without a type, add nothing, and a reply without
    [content] gives the empty text. *)
Theorem non_stream_content (request : ChatCompletionRequest.t)
    (zai_response : BackendResponse.t) (uuid_hex : string) (now : Z) :
  ∃ finish_reason,
    ChatCompletionResponse.choices
      (_non_stream_response request zai_response uuid_hex now)
    = [ Choice.Build 0
          (Message.Build assistant
             (Text (foldr String.app ""
                      (text_blocks (default [] (BackendResponse.content zai_response)))))
             None)
          finish_reason ].
Proof.
  eexists. unfold _non_stream_response; simpl. repeat f_equal.
  destruct (BackendResponse.content zai_response) as [blocks|]; simpl; [|done].
  by rewrite fold_content_text_step.
Qed.

Section BackendKeys.

Variable config : Config.t.
Variable request : ChatCompletionRequest.t.

(** A key that no conditional assignment writes is looked up in the
    literal the translator starts from. *)
Lemma transform_request_frame (key : string) :
  key ≠ "system" → key ≠ "temperature" → key ≠ "top_p" → key ≠ "stop_sequences" →
  transform_request config request !! key
  = ({[ "model" := PStr (ChatCompletionRequest.model request);
        "messages" :=
          PList (Message_model_dump
                   <$> non_system (ChatCompletionRequest.messages request));
        "max_tokens" :=
          PInt (int_or (ChatCompletionRequest.max_tokens request)
                  (Config.max_tokens config));
        "stream" := option_val PBool (ChatCompletionRequest.stream request) ]}
     : gmap string pyval) !! key.
Proof.
  intros Hsystem Htemperature Htop_p Hstop.
  unfold transform_request. rewrite fold_transform_request_step.
  cbv beta iota zeta. rewrite app_nil_l.
  match goal with
  | |- context [ <["model" := ?v]> ?m ] => set (literal := <["model" := v]> m)
  end.
  destruct (last_system_content (ChatCompletionRequest.messages request))
    as [[[|? ?]|[|? ?]]|];
    destruct (ChatCompletionRequest.temperature request);
    destruct (ChatCompletionRequest.top_p request);
    destruct (ChatCompletionRequest.stop request) as [[[|? ?]|[|? ?]]|];
    cbv beta iota zeta delta [set_if from_option Content_truthy str_truthy list_truthy];
    by rewrite ?lookup_insert_ne by done.
Qed.

Lemma transform_request_key_bound (key : string) :
  is_Some (transform_request config request !! key) → key ∈ backend_keys.
Proof.
  intros Hkey. unfold backend_keys.
  destruct (decide (key = "system")) as [->|?]; [set_solver|].
  destruct (decide (key = "temperature")) as [->|?]; [set_solver|].
  destruct (decide (key = "top_p")) as [->|?]; [set_solver|].
  destruct (decide (key = "stop_sequences")) as [->|?]; [set_solver|].
  rewrite transform_request_frame in Hkey by done.
  destruct (decide (key = "model")) as [->|?]; [set_solver|].
  destruct (decide (key = "messages")) as [->|?]; [set_solver|].
  destruct (decide (key = "max_tokens")) as [->|?]; [set_solver|].
  destruct (decide (key = "stream")) as [->|?]; [set_solver|].
  rewrite !lookup_insert_ne, lookup_singleton_ne in Hkey by done.
  by destruct Hkey.
Qed.

(** X11. The backend request always has the keys [model], [messages],
    [max_tokens] and [stream], with [model] and [stream] copied from the
    source request, and it has no key outside those four and [system],
    [temperature], [top_p] and [stop_sequences]: the source's [n],
    penalties, [logit_bias] and [user] are not forwarded. *)
Theorem transform_request_keys :
  transform_request config request !! "model"
  = Some (PStr (ChatCompletionRequest.model request))
  ∧ transform_request config request !! "stream"
    = Some (option_val PBool (ChatCompletionRequest.stream request))
  ∧ ({[ "model"; "messages"; "max_tokens"; "stream" ]} : gset string)
    ⊆ dom (transform_request config request)
  ∧ dom (transform_request config request) ⊆ list_to_set backend_keys.
Proof.
  split; [|split; [|split]].
  - by rewrite transform_request_frame.
  - by rewrite transform_request_frame.
  - apply elem_of_subseteq. intros key Hkey. apply elem_of_dom.
    rewrite !elem_of_union, !elem_of_singleton in Hkey.
    destruct Hkey as [[[-> | ->] | ->] | ->];
      by rewrite transform_request_frame.
  - apply elem_of_subseteq. intros key Hkey. apply elem_of_dom in Hkey.
    apply elem_of_list_to_set. by apply transform_request_key_bound.
Qed.

(** X12. Behind a configuration that [validate] accepts, the backend
    request never carries a [max_tokens] of zero: it carries the
    request's value when that is not zero and the configured default,
    which is at least 1, otherwise; so it is at least 1 unless the
    request asked for a negative number. *)
Theorem validated_max_tokens_is_not_zero :
  Config_validate config = None →
  ∃ max_tokens,
    transform_request config request !! "max_tokens" = Some (PInt max_tokens)
    ∧ max_tokens ≠ 0
    ∧ (0 <= default 0 (ChatCompletionRequest.max_tokens request) → 1 <= max_tokens).
Proof.
  intros Hvalid.
  assert (1 <= Config.max_tokens config) as Hdefault.
  { unfold Config_validate in Hvalid.
    destruct (_ || _)%bool; [done|].
    destruct (Config.max_tokens config <? 1) eqn:Hlt; [done|]. lia. }
  exists (int_or (ChatCompletionRequest.max_tokens request) (Config.max_tokens config)).
  split; [by rewrite transform_request_frame|].
  unfold int_or.
  destruct (ChatCompletionRequest.max_tokens request) as [m|]; simpl; [|lia].
  destruct (m =? 0) eqn:Hm; simpl; lia.
Qed.

End BackendKeys.

(** X13. [ErrorResponse.create] always writes [message] and [type]; it
    writes [code] only for a code that is given and not empty, and
    writes no other key. *)
Theorem error_response_create (message type : string) (code : option string) :
  let error := ErrorResponse.error (ErrorResponse.create message type code) in
  error !! "message" = Some (PStr message)
  ∧ error !! "type" = Some (PStr type)
  ∧ error !! "code"
    = match code with
      | Some c => if str_truthy c then Some (PStr c) else None
      | None => None
      end
  ∧ dom error ⊆ ({[ "message"; "type"; "code" ]} : gset string).
Proof.
  unfold ErrorResponse.create, set_if; simpl.
  destruct code as [[|? ?]|]; simpl; repeat split; try done.
  all: rewrite ?dom_insert_L, dom_singleton_L; apply elem_of_subseteq; intros key;
    rewrite !elem_of_union, !elem_of_singleton; tauto.
Qed.

Section EndpointErrors.

Variable json_loads : string -> option pyval.
Variable exception_str : exception -> string.
Variable post : gmap string pyval -> exception + BackendResponse.t.

(** X14. Every failure of the unary exchange leaves the endpoint as a
    response of status 500 whose error has the type [internal_error] and
    no [code], a failure status of the backend included: [chat_completion]
    has already turned the exception into an [HTTPException], so the
    endpoint's [api_error] answer, which would carry the backend's status,
    is never given. Without a failure the endpoint returns the translated
    reply, and for a request that streams it returns the generator
    without having contacted the backend. *)
Theorem chat_completions_outcomes (config : Config.t)
    (request : ChatCompletionRequest.t) (uuid_hex : string) (now : Z) :
  match chat_completions json_loads exception_str post config request uuid_hex now with
  | StreamingResponse result =>
      stream_flag request = true
      ∧ result = Streaming (_stream_response json_loads request uuid_hex)
  | ModelResponse result =>
      stream_flag request = false
      ∧ ∃ zai_response,
          post (transform_request config request) = inr zai_response
          ∧ result = Complete (_non_stream_response request zai_response uuid_hex now)
  | JSONResponse status_code content =>
      stream_flag request = false
      ∧ (∃ e, post (transform_request config request) = inl e
              ∧ ErrorResponse.error content !! "message"
                = Some (PStr (exception_str (HTTPException 500 (exception_str e)))))
      ∧ status_code = 500
      ∧ ErrorResponse.error content !! "type" = Some (PStr "internal_error")
      ∧ ErrorResponse.error content !! "code" = None
  end.
Proof.
  unfold chat_completions, chat_completion.
  destruct (stream_flag request) eqn:Hflag; [done|].
  destruct (post (transform_request config request)) as [e|zai_response] eqn:Hpost.
  - repeat split; try done. by exists e.
  - split; [done|]. by exists zai_response.
Qed.

End EndpointErrors.

(** ** The added properties on sample inputs *)

(** X1 at the end marker between two events. *)
Lemma end_marker_closes_stream_witness :
  let start := dq "data: {'type': 'content_block_start', 'index': 0}" in
  classify "data: [DONE]" = EndMarker
  ∧ sample_stream ("data: [DONE]" :: [start]) = ([Done], Returned)
  ∧ sample_stream ([start] ++ "data: [DONE]" :: [start])
    = sample_stream ([start] ++ ["data: [DONE]"]).
Proof.
  split; [reflexivity|].
  apply (end_marker_closes_stream py_json_loads (default_request [hello])
           sample_uuid_hex sample_clock
           [dq "data: {'type': 'content_block_start', 'index': 0}"]
           "data: [DONE]"
           [dq "data: {'type': 'content_block_start', 'index': 0}"]).
  reflexivity.
Defined.

(** X2 at a line of two spaces and a tab. *)
Lemma blank_line_is_passed_over_witness :
  let start := dq "data: {'type': 'content_block_start', 'index': 0}" in
  let blank := String " " (String " " (String (ascii_of_nat 9) EmptyString)) in
  strip blank = ""
  ∧ sample_stream ([start] ++ blank :: [start]) = sample_stream ([start] ++ [start]).
Proof.
  split; [reflexivity|].
  apply (blank_line_is_passed_over py_json_loads (default_request [hello])
           sample_uuid_hex sample_clock
           [dq "data: {'type': 'content_block_start', 'index': 0}"]
           (String " " (String " " (String (ascii_of_nat 9) EmptyString)))
           [dq "data: {'type': 'content_block_start', 'index': 0}"]).
  reflexivity.
Defined.

(** X7 at the payload [42]. *)
Lemma non_object_payload_aborts_witness :
  let start := dq "data: {'type': 'content_block_start', 'index': 0}" in
  sample_stream ("data: 42" :: [start]) = ([], Raised AttributeError)
  ∧ sample_stream ([start] ++ "data: 42" :: [start])
    = sample_stream ([start] ++ ["data: 42"]).
Proof.
  apply (non_object_payload_aborts py_json_loads (default_request [hello])
           sample_uuid_hex sample_clock
           [dq "data: {'type': 'content_block_start', 'index': 0}"]
           "data: 42"
           [dq "data: {'type': 'content_block_start', 'index': 0}"]
           "42" (PInt 42)).
  - reflexivity.
  - reflexivity.
  - intros event. discriminate.
Defined.

(** X8 at a [stop_reason] that is a list of one string. *)
Lemma unhashable_stop_reason_aborts_witness :
  sample_stream
    [ dq "data: {'type': 'message_delta', 'delta': {'stop_reason': ['end_turn']}}";
      "data: [DONE]" ]
  = ([], Raised TypeError).
Proof.
  apply (unhashable_stop_reason_aborts py_json_loads (default_request [hello])
           sample_uuid_hex sample_clock
           (dq "data: {'type': 'message_delta', 'delta': {'stop_reason': ['end_turn']}}")
           ["data: [DONE]"]
           (dq "{'type': 'message_delta', 'delta': {'stop_reason': ['end_turn']}}")
           [("type", PStr "message_delta");
            ("delta", PDict [("stop_reason", PList [PStr "end_turn"])])]
           [("stop_reason", PList [PStr "end_turn"])]
           (PList [PStr "end_turn"])).
  - reflexivity.
  - reflexivity.
  - reflexivity.
  - reflexivity.
  - reflexivity.
  - left. exists (PStr "end_turn"), []. reflexivity.
Defined.


(** X12 at the default configuration and a request for zero tokens. *)
Lemma validated_max_tokens_is_not_zero_witness :
  Config_validate default_config = None
  ∧ ∃ max_tokens,
      transform_request default_config
        (with_max_tokens (Some 0) (default_request [hello])) !! "max_tokens"
      = Some (PInt max_tokens)
      ∧ max_tokens ≠ 0
      ∧ (0 <= 0 → 1 <= max_tokens).
Proof.
  split; [reflexivity|].
  apply (validated_max_tokens_is_not_zero default_config
           (with_max_tokens (Some 0) (default_request [hello]))).
  reflexivity.
Defined.

(** X15 at a text that is the escape of the first half of a surrogate
    pair, with nothing after it. *)
Lemma surrogate_text_aborts_witness :
  sample_stream
    [ dq "data: {'type': 'content_block_delta', 'delta': {'type': 'text_delta', 'text': '\ud83d'}}";
      "data: [DONE]" ]
  = ([], Raised PydanticSerializationError).
Proof.
  apply (surrogate_text_aborts py_json_loads (default_request [hello])
           sample_uuid_hex sample_clock
           (dq "data: {'type': 'content_block_delta', 'delta': {'type': 'text_delta', 'text': '\ud83d'}}")
           ["data: [DONE]"]
           (utf8_encode 55357)).
  - reflexivity.
  - reflexivity.
Defined.

(** C9 as stated fails: the payload [42] decodes, but not to the object
    the loop expects; the line is not skipped, the stream ends with
    [AttributeError] and the event after it yields nothing, where
    without the line both events are translated. *)
Lemma non_object_line_is_not_skipped :
  let start := dq "data: {'type': 'content_block_start', 'index': 0}" in
  let delta :=
    dq "data: {'type': 'content_block_delta', 'delta': {'type': 'text_delta', 'text': 'Hi'}}" in
  sample_stream [start; "data: 42"; delta]
  = ([Chunk (chunk_of "chatcmpl-3f2a9c0d" "glm-4.5" 1700000000
               {[ "role" := PStr "assistant"; "content" := PStr "" ]} None)],
     Raised AttributeError)
  ∧ sample_stream [start; delta]
    = ([Chunk (chunk_of "chatcmpl-3f2a9c0d" "glm-4.5" 1700000000
                 {[ "role" := PStr "assistant"; "content" := PStr "" ]} None);
        Chunk (chunk_of "chatcmpl-3f2a9c0d" "glm-4.5" 1700000001
                 {[ "content" := PStr "Hi" ]} None)],
       Returned).
Proof. split; by vm_compute. Qed.
